(** * A shallow embedding of the Query CRUD API of dune_client
    (src/dune_client/api/query.py).

    The client talks to a server through the transport of [BaseRouter];
    every method is a computation in a small state-and-exception monad
    whose state holds the server's own state, the list of HTTP requests
    issued so far and the warnings logged so far.  Python exceptions are
    values of [exn]; a raised exception keeps the state reached so far
    (requests already sent stay sent). *)

From Stdlib Require Import String Ascii List ZArith Lia Bool.
From Stdlib Require Import DecimalString DecimalZ.
Import ListNotations.
Open Scope string_scope.
Open Scope Z_scope.
Set Warnings "-register-all".

(** ** JSON values as returned by [response.json()].
    Numbers are the integers of the JSON text (the payloads of this API
    only carry integer numbers). *)
Inductive json : Type :=
| JNull
| JBool (b : bool)
| JNum (z : Z)
| JStr (s : string)
| JArr (l : list json)
| JObj (kvs : list (string * json)).

(** ** Python exceptions raised by the code. *)
Inductive exn : Type :=
| DuneError (payload : json) (response_type : string) (cause : exn)
| KeyError (key : string)
| ValueError
| TypeError
| AttributeError (attr : string)
| AssertionError.

(** ** HTTP requests issued by the transport. *)
Inductive http_method : Type := GET | POST | PATCH.

Record request : Type := mkRequest {
  req_method : http_method;
  req_route : string;
  req_params : option json
}.

(** ** The effect monad. *)
Inductive outcome (A : Type) : Type :=
| Ok (a : A)
| Raise (e : exn).
Arguments Ok {A} a.
Arguments Raise {A} e.

Record world (S : Type) : Type := mkWorld {
  wsrv : S;                 (* state of the server *)
  wcalls : list request;    (* requests sent, oldest first *)
  wlog : list string        (* warnings logged, oldest first *)
}.
Arguments mkWorld {S} _ _ _.
Arguments wsrv {S} _.
Arguments wcalls {S} _.
Arguments wlog {S} _.

Definition M (S A : Type) : Type := world S -> outcome A * world S.

Definition ret {S A} (a : A) : M S A := fun w => (Ok a, w).

Definition raise {S A} (e : exn) : M S A := fun w => (Raise e, w).

Definition bind {S A B} (m : M S A) (k : A -> M S B) : M S B :=
  fun w => match m w with
           | (Ok a, w') => k a w'
           | (Raise e, w') => (Raise e, w')
           end.

Notation "x <- m ;; k" := (bind m (fun x => k))
  (at level 61, m at next level, right associativity).
Notation "m ;;; k" := (bind m (fun _ => k))
  (at level 61, right associativity).

(** [try: m  except KeyError as err: h err] *)
Definition catch_key {S A} (m : M S A) (h : string -> M S A) : M S A :=
  fun w => match m w with
           | (Raise (KeyError k), w') => h k w'
           | r => r
           end.

(** Lift a pure Python computation that may raise. *)
Definition lift {S A} (o : outcome A) : M S A := fun w => (o, w).

(** [self.logger.warning(msg)] *)
Definition warning {S} (msg : string) : M S unit :=
  fun w => (Ok tt, mkWorld (wsrv w) (wcalls w) (wlog w ++ [msg])%list).

(** ** Python builtins used by the code. *)

(** [str(n)] for an integer [n]: its decimal representation. *)
Definition z_to_str (z : Z) : string :=
  NilEmpty.string_of_int (Z.to_int z).

(** [d[k]] on a decoded JSON value: a dict gives the value bound to [k]
    (json.loads keeps the last of duplicated keys) or raises KeyError;
    indexing any other JSON value by a string raises TypeError. *)
Fixpoint assoc_last (k : string) (kvs : list (string * json)) : option json :=
  match kvs with
  | [] => None
  | (k', v) :: rest =>
      match assoc_last k rest with
      | Some v' => Some v'
      | None => if String.eqb k k' then Some v else None
      end
  end.

Definition getitem (d : json) (k : string) : outcome json :=
  match d with
  | JObj kvs => match assoc_last k kvs with
                | Some v => Ok v
                | None => Raise (KeyError k)
                end
  | _ => Raise TypeError
  end.

(** [int(x)] on a decoded JSON value.  Strings follow Python's decimal
    literal syntax: surrounding whitespace, an optional sign, decimal
    digits with single underscores between digits. *)
Definition is_space (c : ascii) : bool :=
  let n := nat_of_ascii c in
  (Nat.leb 9 n && Nat.leb n 13) || (Nat.leb 28 n && Nat.leb n 32).

Fixpoint drop_space (l : list ascii) : list ascii :=
  match l with
  | c :: r => if is_space c then drop_space r else l
  | [] => []
  end.

Definition strip (l : list ascii) : list ascii :=
  rev (drop_space (rev (drop_space l))).

Definition digit_of (c : ascii) : option Z :=
  let n := nat_of_ascii c in
  if Nat.leb 48 n && Nat.leb n 57 then Some (Z.of_nat n - 48) else None.

Fixpoint parse_digits (l : list ascii) (acc : Z) : option Z :=
  match l with
  | [] => Some acc
  | c :: r =>
      match digit_of c with
      | Some d => parse_digits r (acc * 10 + d)
      | None =>
          if Ascii.eqb c "_" then
            match r with
            | c' :: r' => match digit_of c' with
                          | Some d => parse_digits r' (acc * 10 + d)
                          | None => None
                          end
            | [] => None
            end
          else None
      end
  end.

Definition parse_unsigned (l : list ascii) : option Z :=
  match l with
  | c :: r => match digit_of c with
              | Some d => parse_digits r d
              | None => None
              end
  | [] => None
  end.

Definition parse_int_literal (s : string) : option Z :=
  match strip (list_ascii_of_string s) with
  | c :: r =>
      if Ascii.eqb c "-" then option_map Z.opp (parse_unsigned r)
      else if Ascii.eqb c "+" then parse_unsigned r
      else parse_unsigned (c :: r)
  | [] => None
  end.

Definition py_int (v : json) : outcome Z :=
  match v with
  | JNum z => Ok z
  | JBool b => Ok (if b then 1 else 0)
  | JStr s => match parse_int_literal s with
              | Some z => Ok z
              | None => Raise ValueError
              end
  | _ => Raise TypeError
  end.

(** Python truthiness, used by [assert]. *)
Definition truthy (v : json) : bool :=
  match v with
  | JNull => false
  | JBool b => b
  | JNum z => negb (Z.eqb z 0)
  | JStr s => negb (String.eqb s "")
  | JArr l => match l with [] => false | _ => true end
  | JObj l => match l with [] => false | _ => true end
  end.

(** ** Query parameters (dune_client.types.QueryParameter).
    Modelled from the spec: dune_client/types.py is not among the sources;
    the spec describes a parameter as a tagged union over text, number,
    date and enum, each with a name and a value, serialised with its wire
    type tag. *)
Inductive ParameterType : Type := TEXT | NUMBER | DATE | ENUM.

Record QueryParameter : Type := mkQueryParameter {
  qp_name : string;
  qp_type : ParameterType;
  qp_value : string
}.

Definition parameter_type_str (t : ParameterType) : string :=
  match t with
  | TEXT => "text"
  | NUMBER => "number"
  | DATE => "datetime"
  | ENUM => "enum"
  end.

(** Modelled from the spec: [QueryParameter.to_dict]. *)
Definition to_dict (p : QueryParameter) : json :=
  JObj [("key", JStr (qp_name p));
        ("type", JStr (parameter_type_str (qp_type p)));
        ("value", JStr (qp_value p))].

(** [QueryParameter.from_dict] on one element of a query's parameter
    list.  Modelled from the spec: dune_client/types.py is not among the
    sources; it reads the keys written by [to_dict] and maps the wire type
    tag back to the variant (an unknown tag raises ValueError). *)
Definition parameter_type_of_str (s : string) : option ParameterType :=
  if String.eqb s "text" then Some TEXT
  else if String.eqb s "number" then Some NUMBER
  else if String.eqb s "datetime" then Some DATE
  else if String.eqb s "enum" then Some ENUM
  else None.

Definition json_string (v : json) : outcome string :=
  match v with JStr s => Ok s | _ => Raise TypeError end.

Definition obind {A B} (o : outcome A) (f : A -> outcome B) : outcome B :=
  match o with Ok a => f a | Raise e => Raise e end.

Notation "'let?' x := o 'in' k" := (obind o (fun x => k))
  (at level 200, x name, o at level 100, k at level 200).

Definition param_from_dict (p : json) : outcome QueryParameter :=
  let? key := getitem p "key" in
  let? typ := getitem p "type" in
  let? value := getitem p "value" in
  let? name := json_string key in
  let? tstr := json_string typ in
  let? v := json_string value in
  match parameter_type_of_str tstr with
  | Some t => Ok (mkQueryParameter name t v)
  | None => Raise ValueError
  end.

(** [for p in v]: a list yields its elements, a dict its keys, a string
    its characters; other JSON values are not iterable. *)
Definition py_iter (v : json) : outcome (list json) :=
  match v with
  | JArr l => Ok l
  | JObj kvs => Ok (map (fun kv => JStr (fst kv)) kvs)
  | JStr s => Ok (map (fun c => JStr (String c EmptyString)) (list_ascii_of_string s))
  | _ => Raise TypeError
  end.

(** [[f(p) for p in l]]: the first exception stops the comprehension. *)
Fixpoint map_outcome {A B} (f : A -> outcome B) (l : list A) : outcome (list B) :=
  match l with
  | [] => Ok []
  | x :: r => let? y := f x in let? ys := map_outcome f r in Ok (y :: ys)
  end.

(** ** The query object returned by [get_query] (dune_client.query.DuneQuery).
    Modelled from the spec: dune_client/query.py is not among the sources;
    [from_dict] reads by key every attribute the spec lists for a query
    (id, name, parameters, description, tags, privacy and archived flags,
    SQL text), raising KeyError on a missing key; the parameters are
    parsed one by one, the other attributes kept as decoded JSON. *)
Record QueryMeta : Type := mkQueryMeta {
  description : json;
  tags : json;
  is_private : json;
  is_archived : json
}.

Record DuneQuery : Type := mkDuneQuery {
  dq_query_id : Z;
  dq_name : json;
  dq_params : list QueryParameter;
  dq_sql : json;
  meta : QueryMeta
}.

Definition from_dict (data : json) : outcome DuneQuery :=
  let? qid := getitem data "query_id" in
  let? qid := py_int qid in
  let? name := getitem data "name" in
  let? ps := getitem data "parameters" in
  let? ps := py_iter ps in
  let? params := map_outcome param_from_dict ps in
  let? desc := getitem data "description" in
  let? tg := getitem data "tags" in
  let? priv := getitem data "is_private" in
  let? arch := getitem data "is_archived" in
  let? sql := getitem data "query_sql" in
  Ok (mkDuneQuery qid name params sql (mkQueryMeta desc tg priv arch)).

(** ** UpdateQueryParams (query.py, lines 17-23): a NamedTuple whose
    fields all default to None. *)
Record UpdateQueryParams : Type := mkUpdateQueryParams {
  uqp_name : option string;
  uqp_query_sql : option string;
  uqp_params : option (list QueryParameter);
  uqp_description : option string;
  uqp_tags : option (list string)
}.

(** [UpdateQueryParams()] *)
Definition UpdateQueryParams_default : UpdateQueryParams :=
  mkUpdateQueryParams None None None None None.

(** Attribute lookup [p.<attr>] for the list-of-parameters field: the
    NamedTuple has the attribute [params] and no other one of that type;
    any other name raises AttributeError. *)
Definition uqp_getattr_params (p : UpdateQueryParams) (attr : string)
  : option (option (list QueryParameter)) :=
  if String.eqb attr "params" then Some (uqp_params p) else None.

Section QueryAPI.

(** The server: answers one request, given its state.
    Modelled from the spec: dune_client/api/base.py ([BaseRouter._get],
    [_post], [_patch]) is not among the sources; the spec's transport
    sends the request and returns the parsed JSON body. *)
Context {S : Type} (server : S -> request -> json * S).

Definition send (m : http_method) (route : string) (params : option json)
  : M S json :=
  fun w =>
    let r := mkRequest m route params in
    let (resp, s') := server (wsrv w) r in
    (Ok resp, mkWorld s' (wcalls w ++ [r])%list (wlog w)).

Definition _get (route : string) : M S json := send GET route None.
Definition _post (route : string) (params : option json) : M S json :=
  send POST route params.
Definition _patch (route : string) (params : option json) : M S json :=
  send PATCH route params.

(** [get_query] (lines 58-64). *)
Definition get_query (query_id : Z) : M S DuneQuery :=
  response_json <- _get ("/query/" ++ z_to_str query_id) ;;
  lift (from_dict response_json).

(** The payload built by [create_query] (lines 43-49). *)
Definition create_payload (name query_sql : string)
  (params : option (list QueryParameter)) (is_private : bool) : json :=
  JObj ([("name", JStr name); ("query_sql", JStr query_sql);
         ("is_private", JBool is_private)]
        ++ match params with
           | Some ps => [("parameters", JArr (map to_dict ps))]
           | None => []
           end)%list.

(** [create_query] (lines 32-56). *)
Definition create_query (name query_sql : string)
  (params : option (list QueryParameter)) (is_private : bool) : M S DuneQuery :=
  response_json <- _post "/query/" (Some (create_payload name query_sql params is_private)) ;;
  catch_key
    (query_id <- lift (getitem response_json "query_id" ) ;;
     query_id <- lift (py_int query_id) ;;
     get_query query_id)
    (fun k => raise (DuneError response_json "CreateQueryResponse" (KeyError k))).

(** [update_query] (lines 66-108).  The dict [parameters] is an
    association list in insertion order. *)
Definition update_query (query_id : Z) (params : option UpdateQueryParams)
  : M S Z :=
  let params := match params with
                | None => UpdateQueryParams_default
                | Some p => p
                end in
  let parameters :=
    (match uqp_name params with Some n => [("name", JStr n)] | None => [] end
    ++ match uqp_description params with
       | Some d => [("description", JStr d)] | None => [] end
    ++ match uqp_tags params with
       | Some t => [("tags", JArr (map JStr t))] | None => [] end
    ++ match uqp_query_sql params with
       | Some q => [("query_sql", JStr q)] | None => [] end)%list in
  match uqp_getattr_params params "query_parms" with
  | None => raise (AttributeError "query_parms")
  | Some query_parms =>
    let parameters :=
      (parameters ++ match query_parms with
                     | Some ps => [("parameters", JArr (map to_dict ps))]
                     | None => []
                     end)%list in
    match parameters with
    | [] =>
      warning "called update_query with no proposed changes." ;;;
      ret query_id
    | _ :: _ =>
      response_json <- _patch ("/query/" ++ z_to_str query_id) (Some (JObj parameters)) ;;
      catch_key
        (v <- lift (getitem response_json "query_id") ;; lift (py_int v))
        (fun k => raise (DuneError response_json "UpdateQueryResponse" (KeyError k)))
    end
  end.

(** [archive_query] / [unarchive_query] (lines 110-132): post the action,
    then re-fetch the query whose id the action response carries. *)
Definition refetch_flag (action response_type : string) (query_id : Z)
  (flag : QueryMeta -> json) : M S json :=
  response_json <- _post ("/query/" ++ z_to_str query_id ++ "/" ++ action) None ;;
  catch_key
    (v <- lift (getitem response_json "query_id") ;;
     j <- lift (py_int v) ;;
     q <- get_query j ;;
     ret (flag (meta q)))
    (fun k => raise (DuneError response_json response_type (KeyError k))).

Definition archive_query (query_id : Z) : M S json :=
  refetch_flag "archive" "ArchiveQueryResponse" query_id is_archived.

Definition unarchive_query (query_id : Z) : M S json :=
  refetch_flag "unarchive" "UnarchiveQueryResponse" query_id is_archived.

(** [assert b] *)
Definition py_assert (b : bool) : M S unit :=
  if b then ret tt else raise AssertionError.

(** [make_private] / [make_public] (lines 134-152). *)
Definition make_private (query_id : Z) : M S unit :=
  response_json <- _post ("/query/" ++ z_to_str query_id ++ "/private") None ;;
  catch_key
    (v <- lift (getitem response_json "query_id") ;;
     j <- lift (py_int v) ;;
     q <- get_query j ;;
     py_assert (truthy (is_private (meta q))))
    (fun k => raise (DuneError response_json "MakePrivateResponse" (KeyError k))).

Definition make_public (query_id : Z) : M S unit :=
  response_json <- _post ("/query/" ++ z_to_str query_id ++ "/unprivate") None ;;
  catch_key
    (v <- lift (getitem response_json "query_id") ;;
     j <- lift (py_int v) ;;
     q <- get_query j ;;
     py_assert (negb (truthy (is_private (meta q)))))
    (fun k => raise (DuneError response_json "MakePublicResponse" (KeyError k))).

End QueryAPI.

(** ** A server that honors the query routes of the spec (section 6):
    [GET /query/{id}] returns the stored query, [POST /query/{id}/archive],
    [/unarchive], [/private], [/unprivate] update the stored flags and
    answer [{query_id}], [POST /query/] stores a new query under a fresh
    id and answers [{query_id}]; an unknown id answers an error payload. *)
Module ModelServer.

Record StoredQuery : Type := mkStoredQuery {
  sq_name : string;
  sq_sql : string;
  sq_params : list QueryParameter;
  sq_description : string;
  sq_tags : list string;
  sq_private : bool;
  sq_archived : bool
}.

Definition set_archived (b : bool) (q : StoredQuery) : StoredQuery :=
  mkStoredQuery (sq_name q) (sq_sql q) (sq_params q) (sq_description q) (sq_tags q)
    (sq_private q) b.

Definition set_private (b : bool) (q : StoredQuery) : StoredQuery :=
  mkStoredQuery (sq_name q) (sq_sql q) (sq_params q) (sq_description q) (sq_tags q)
    b (sq_archived q).
Definition Store : Type := list (Z * StoredQuery).

Fixpoint store_lookup (st : Store) (i : Z) : option StoredQuery :=
  match st with
  | [] => None
  | (j, q) :: rest => if Z.eqb i j then Some q else store_lookup rest i
  end.

Fixpoint store_update (st : Store) (i : Z) (f : StoredQuery -> StoredQuery)
  : Store :=
  match st with
  | [] => []
  | (j, q) :: rest =>
      (j, if Z.eqb i j then f q else q) :: store_update rest i f
  end.

Definition fresh_id (st : Store) : Z :=
  1 + fold_right (fun e m => Z.max (fst e) m) 0 st.

Fixpoint strip_prefix (p s : string) : option string :=
  match p, s with
  | EmptyString, _ => Some s
  | String c p', String c' s' =>
      if Ascii.eqb c c' then strip_prefix p' s' else None
  | String _ _, EmptyString => None
  end.

Fixpoint split_slash (s : string) : string * option string :=
  match s with
  | EmptyString => (EmptyString, None)
  | String c s' =>
      if Ascii.eqb c "/" then (EmptyString, Some s')
      else let (a, b) := split_slash s' in (String c a, b)
  end.

Definition action_effect (a : string) : option (StoredQuery -> StoredQuery) :=
  if String.eqb a "archive" then Some (set_archived true)
  else if String.eqb a "unarchive" then Some (set_archived false)
  else if String.eqb a "private" then Some (set_private true)
  else if String.eqb a "unprivate" then Some (set_private false)
  else None.

(** The full query object of [GET /query/{id}]: the attributes of the
    spec, and the further fields the API's query object carries
    (version, query_engine, is_unsaved, owner) with fixed values. *)
Definition query_json (i : Z) (q : StoredQuery) : json :=
  JObj [("query_id", JNum i); ("name", JStr (sq_name q));
        ("description", JStr (sq_description q));
        ("tags", JArr (map JStr (sq_tags q)));
        ("version", JNum 1);
        ("parameters", JArr (map to_dict (sq_params q)));
        ("query_engine", JStr "medium");
        ("query_sql", JStr (sq_sql q));
        ("is_private", JBool (sq_private q));
        ("is_archived", JBool (sq_archived q));
        ("is_unsaved", JBool false);
        ("owner", JStr "owner")].

(** The query object the client is expected to build from [query_json]. *)
Definition to_dune_query (i : Z) (q : StoredQuery) : DuneQuery :=
  mkDuneQuery i (JStr (sq_name q)) (sq_params q) (JStr (sq_sql q))
    (mkQueryMeta (JStr (sq_description q)) (JArr (map JStr (sq_tags q)))
       (JBool (sq_private q)) (JBool (sq_archived q))).

Definition error_json (msg : string) : json := JObj [("error", JStr msg)].

Definition json_str (v : option json) : option string :=
  match v with Some (JStr s) => Some s | _ => None end.

Definition json_bool (v : option json) : option bool :=
  match v with Some (JBool b) => Some b | _ => None end.

Definition create (st : Store) (body : option json) : json * Store :=
  match body with
  | Some (JObj kvs) =>
      match json_str (assoc_last "name" kvs), json_str (assoc_last "query_sql" kvs),
            json_bool (assoc_last "is_private" kvs) with
      | Some n, Some sql, Some p =>
          let params := match assoc_last "parameters" kvs with
                        | None => Ok []
                        | Some v => let? l := py_iter v in map_outcome param_from_dict l
                        end in
          match params with
          | Ok ps =>
              let i := fresh_id st in
              (JObj [("query_id", JNum i)],
               (st ++ [(i, mkStoredQuery n sql ps "" [] p false)])%list)
          | Raise _ => (error_json "Invalid parameters", st)
          end
      | _, _, _ => (error_json "Invalid request", st)
      end
  | _ => (error_json "Invalid request", st)
  end.

Definition server (st : Store) (r : request) : json * Store :=
  match strip_prefix "/query/" (req_route r) with
  | None => (error_json "Not found", st)
  | Some EmptyString =>
      match req_method r with
      | POST => create st (req_params r)
      | _ => (error_json "Not found", st)
      end
  | Some rest =>
      let (idstr, act) := split_slash rest in
      match NilEmpty.int_of_string idstr with
      | None => (error_json "Query not found", st)
      | Some d =>
          let i := Z.of_int d in
          match store_lookup st i with
          | None => (error_json "Query not found", st)
          | Some q =>
              match req_method r, act with
              | GET, None => (query_json i q, st)
              | POST, Some a =>
                  match action_effect a with
                  | Some f => (JObj [("query_id", JNum i)], store_update st i f)
                  | None => (error_json "Not found", st)
                  end
              | _, _ => (error_json "Not found", st)
              end
          end
      end
  end.

End ModelServer.

Definition start {S} (s : S) : world S := mkWorld s [] [].

(** A server that answers every request with the same payload and keeps
    no state, such as the error payload of a rejected API key. *)
Definition const_server (resp : json) : unit -> request -> json * unit :=
  fun s _ => (resp, s).

Definition invalid_key_payload : json := JObj [("error", JStr "invalid API Key")].

(** A server that answers every action with the id [echo], whatever id
    the route names, and every read with the query [q] under id [echo]. *)
Definition echo_server (echo : Z) (q : ModelServer.StoredQuery)
  : unit -> request -> json * unit :=
  fun s r => match req_method r with
             | GET => (ModelServer.query_json echo q, s)
             | _ => (JObj [("query_id", JNum echo)], s)
             end.

Definition non_integer_id_payload : json := JObj [("query_id", JStr "abc")].

Definition sample_query : ModelServer.StoredQuery :=
  ModelServer.mkStoredQuery "Sample Query" "select 1"
    [mkQueryParameter "TextField" TEXT "Plain Text"] "" ["test"] false false.

Example ex_archive_run :
  let st := [(7, sample_query)] in
  fst ((a <- archive_query ModelServer.server 7 ;;
        b <- unarchive_query ModelServer.server 7 ;; ret (a, b)) (start st))
  = Ok (JBool true, JBool false).
Proof. reflexivity. Qed.

Example ex_create_run :
  fst (create_query ModelServer.server "n" "select 1" None true (start []))
  = Ok (mkDuneQuery 1 (JStr "n") [] (JStr "select 1")
          (mkQueryMeta (JStr "") (JArr []) (JBool true) (JBool false))).
Proof. reflexivity. Qed.

Example ex_update_run :
  update_query ModelServer.server 7 None (start [])
  = (Raise (AttributeError "query_parms"), start []).
Proof. reflexivity. Qed.

(** ** General facts about the embedding. *)

Lemma get_query_calls {S} (server : S -> request -> json * S) j w o w' :
  get_query server j w = (o, w') ->
  wcalls w' = (wcalls w ++ [mkRequest GET ("/query/" ++ z_to_str j) None])%list.
Proof.
  unfold get_query, bind, _get, send, lift.
  destruct (server (wsrv w) _) as [resp s']; simpl.
  intros H; inversion H; reflexivity.
Qed.

(** [update_query] raises AttributeError on every input before any
    request: line 92 reads [params.query_parms], which UpdateQueryParams
    does not have. *)
Lemma update_query_raises {S} (server : S -> request -> json * S) i p w :
  update_query server i p w = (Raise (AttributeError "query_parms"), w).
Proof. destruct p as [[]|]; reflexivity. Qed.

(** Route parsing in the model server. *)
Fixpoint slash_free (s : string) : bool :=
  match s with
  | EmptyString => true
  | String c s' => negb (Ascii.eqb c "/") && slash_free s'
  end.

Lemma slash_free_z_to_str z : slash_free (z_to_str z) = true.
Proof.
  unfold z_to_str, NilEmpty.string_of_int.
  assert (H : forall d, slash_free (NilEmpty.string_of_uint d) = true)
    by (induction d; simpl; auto).
  destruct (Z.to_int z); simpl; auto.
Qed.

Lemma split_slash_free a :
  slash_free a = true -> ModelServer.split_slash a = (a, None).
Proof.
  induction a as [|c a IH]; simpl; auto.
  destruct (Ascii.eqb c "/"); simpl; [discriminate|].
  intros H; rewrite (IH H); reflexivity.
Qed.

Lemma split_slash_app a b :
  slash_free a = true -> ModelServer.split_slash (a ++ String "/" b) = (a, Some b).
Proof.
  induction a as [|c a IH]; simpl; auto.
  destruct (Ascii.eqb c "/"); simpl; [discriminate|].
  intros H; rewrite (IH H); reflexivity.
Qed.

Lemma int_of_z_to_str z :
  option_map Z.of_int (NilEmpty.int_of_string (z_to_str z)) = Some z.
Proof. unfold z_to_str; rewrite NilEmpty.isi; simpl; rewrite DecimalZ.of_to; reflexivity. Qed.

Lemma z_to_str_nonempty z : z_to_str z <> EmptyString.
Proof.
  intros H.
  pose proof (int_of_z_to_str z) as E; rewrite H in E; simpl in E.
  inversion E; subst; discriminate.
Qed.

Lemma store_lookup_update st i f :
  ModelServer.store_lookup (ModelServer.store_update st i f) i
  = option_map f (ModelServer.store_lookup st i).
Proof.
  induction st as [|[j q] st IH]; simpl; auto.
  destruct (Z.eqb i j) eqn:E; simpl; rewrite ?E; auto.
Qed.

Lemma model_server_get st i q :
  ModelServer.store_lookup st i = Some q ->
  ModelServer.server st (mkRequest GET ("/query/" ++ z_to_str i) None)
  = (ModelServer.query_json i q, st).
Proof.
  intros Hq. unfold ModelServer.server; simpl.
  rewrite split_slash_free by apply slash_free_z_to_str.
  pose proof (int_of_z_to_str i) as Hi.
  destruct (NilEmpty.int_of_string (z_to_str i)) as [d|]; [|discriminate].
  inversion Hi as [Hd]; rewrite Hd, Hq.
  destruct (z_to_str i) eqn:E; [exfalso; exact (z_to_str_nonempty i E)|reflexivity].
Qed.

Lemma model_server_action st i q a f :
  ModelServer.store_lookup st i = Some q ->
  ModelServer.action_effect a = Some f ->
  ModelServer.server st (mkRequest POST ("/query/" ++ z_to_str i ++ "/" ++ a) None)
  = (JObj [("query_id", JNum i)], ModelServer.store_update st i f).
Proof.
  intros Hq Ha. unfold ModelServer.server; simpl.
  rewrite split_slash_app by apply slash_free_z_to_str.
  pose proof (int_of_z_to_str i) as Hi.
  destruct (NilEmpty.int_of_string (z_to_str i)) as [d|]; [|discriminate].
  inversion Hi as [Hd]; rewrite Hd, Hq, Ha.
  destruct (z_to_str i); reflexivity.
Qed.

Lemma param_from_dict_to_dict p : param_from_dict (to_dict p) = Ok p.
Proof. destruct p as [n [] v]; reflexivity. Qed.

Lemma params_roundtrip l : map_outcome param_from_dict (map to_dict l) = Ok l.
Proof.
  induction l as [|p l IH]; [reflexivity|].
  simpl map; simpl map_outcome. rewrite param_from_dict_to_dict; simpl.
  rewrite IH; reflexivity.
Qed.

Lemma from_dict_query_json i q :
  from_dict (ModelServer.query_json i q) = Ok (ModelServer.to_dune_query i q).
Proof.
  unfold from_dict, ModelServer.query_json; cbn -[map_outcome map].
  rewrite params_roundtrip; reflexivity.
Qed.

Lemma model_get_query st i q calls log :
  ModelServer.store_lookup st i = Some q ->
  get_query ModelServer.server i (mkWorld st calls log)
  = (Ok (ModelServer.to_dune_query i q),
     mkWorld st (calls ++ [mkRequest GET ("/query/" ++ z_to_str i) None])%list log).
Proof.
  intros Hq. unfold get_query, bind, _get, send; simpl wsrv.
  rewrite (model_server_get st i q Hq). unfold lift.
  rewrite from_dict_query_json. reflexivity.
Qed.

Lemma model_refetch st i q a f ty flag calls log :
  ModelServer.store_lookup st i = Some q ->
  ModelServer.action_effect a = Some f ->
  refetch_flag ModelServer.server a ty i flag (mkWorld st calls log)
  = (Ok (flag (meta (ModelServer.to_dune_query i (f q)))),
     mkWorld (ModelServer.store_update st i f)
       (calls ++ [mkRequest POST ("/query/" ++ z_to_str i ++ "/" ++ a) None;
                  mkRequest GET ("/query/" ++ z_to_str i) None])%list log).
Proof.
  intros Hq Ha.
  unfold refetch_flag, bind at 1, _post, send; simpl wsrv.
  rewrite (model_server_action st i q a f Hq Ha).
  unfold catch_key, bind, lift.
  cbn -[get_query z_to_str String.append].
  rewrite (model_get_query (ModelServer.store_update st i f) i (f q))
    by (rewrite store_lookup_update, Hq; reflexivity).
  rewrite <- app_assoc. reflexivity.
Qed.

(** The action-then-refetch block shared by archive, unarchive, private
    and unprivate, once the action response carries an integer id. *)
Lemma refetch_block {S A} (server : S -> request -> json * S) resp v j
  (k : DuneQuery -> M S A) ty w :
  getitem resp "query_id" = Ok v -> py_int v = Ok j ->
  catch_key
    (v <- lift (getitem resp "query_id") ;;
     j <- lift (py_int v) ;;
     q <- get_query server j ;; k q)
    (fun key => raise (DuneError resp ty (KeyError key))) w
  = match get_query server j w with
    | (Ok q, w2) =>
        match k q w2 with
        | (Raise (KeyError key), w3) => (Raise (DuneError resp ty (KeyError key)), w3)
        | r => r
        end
    | (Raise (KeyError key), w2) => (Raise (DuneError resp ty (KeyError key)), w2)
    | (Raise e, w2) => (Raise e, w2)
    end.
Proof.
  intros Hv Hj. unfold catch_key, bind at 1, lift at 1; rewrite Hv.
  unfold bind at 1, lift at 1; rewrite Hj.
  unfold bind. destruct (get_query server j w) as [[q|e] w2]; [|destruct e; reflexivity].
  destruct (k q w2) as [[x|e] w3]; [|destruct e]; reflexivity.
Qed.

Ltac post_step Hpost :=
  unfold bind at 1, _post, send; rewrite Hpost; cbv beta iota.

Lemma refetch_flag_spec {S} (server : S -> request -> json * S) a ty i flag w
  resp s1 v j :
  server (wsrv w) (mkRequest POST ("/query/" ++ z_to_str i ++ "/" ++ a) None) = (resp, s1) ->
  getitem resp "query_id" = Ok v -> py_int v = Ok j ->
  refetch_flag server a ty i flag w
  = match get_query server j
            (mkWorld s1 (wcalls w ++ [mkRequest POST ("/query/" ++ z_to_str i ++ "/" ++ a) None])%list (wlog w)) with
    | (Ok q, w2) => (Ok (flag (meta q)), w2)
    | (Raise (KeyError key), w2) => (Raise (DuneError resp ty (KeyError key)), w2)
    | (Raise e, w2) => (Raise e, w2)
    end.
Proof.
  intros Hpost Hv Hj. unfold refetch_flag. post_step Hpost.
  rewrite (refetch_block server resp v j _ ty _ Hv Hj).
  destruct (get_query server j _) as [[q|e] w2]; reflexivity.
Qed.

Lemma privacy_spec {S} (server : S -> request -> json * S) (priv : bool) i w
  resp s1 v j :
  server (wsrv w) (mkRequest POST ("/query/" ++ z_to_str i ++
                     (if priv then "/private" else "/unprivate")) None) = (resp, s1) ->
  getitem resp "query_id" = Ok v -> py_int v = Ok j ->
  (if priv then make_private server i w else make_public server i w)
  = match get_query server j
            (mkWorld s1 (wcalls w ++ [mkRequest POST ("/query/" ++ z_to_str i ++
                     (if priv then "/private" else "/unprivate")) None])%list (wlog w)) with
    | (Ok q, w2) =>
        py_assert (if priv then truthy (is_private (meta q))
                   else negb (truthy (is_private (meta q)))) w2
    | (Raise (KeyError key), w2) =>
        (Raise (DuneError resp (if priv then "MakePrivateResponse" else "MakePublicResponse")
                  (KeyError key)), w2)
    | (Raise e, w2) => (Raise e, w2)
    end.
Proof.
  intros Hpost Hv Hj.
  destruct priv; [unfold make_private | unfold make_public]; post_step Hpost;
    rewrite (refetch_block server resp v j _ _ _ Hv Hj);
    destruct (get_query server j _) as [[q|e] w2]; try reflexivity;
    unfold py_assert; destruct (truthy _); reflexivity.
Qed.

(** ** The claims. *)

(** C1 (code_bug).  [update_query] with no update fields (params omitted
    or all five fields None) does not return the id: it raises
    AttributeError ([params.query_parms]), sends no request and logs no
    warning. *)
Theorem update_query_no_fields {S} (server : S -> request -> json * S)
  (i : Z) (w : world S) :
  update_query server i None w = (Raise (AttributeError "query_parms"), w) /\
  update_query server i (Some UpdateQueryParams_default) w
  = (Raise (AttributeError "query_parms"), w).
Proof. split; apply update_query_raises. Qed.

(** C2 (code_bug).  An update that supplies an empty tags list or an empty
    parameters list sends no PATCH payload at all: the call raises
    AttributeError before any request. *)
Theorem update_query_empty_list_not_sent {S} (server : S -> request -> json * S)
  (i : Z) (w : world S) :
  update_query server i (Some (mkUpdateQueryParams None None None None (Some []))) w
  = (Raise (AttributeError "query_parms"), w) /\
  update_query server i (Some (mkUpdateQueryParams None None (Some []) None None)) w
  = (Raise (AttributeError "query_parms"), w).
Proof. split; apply update_query_raises. Qed.

(** C3 (code_bug).  An update that supplies a field issues no PATCH
    request and returns no id: it raises AttributeError. *)
Theorem update_query_with_field_no_patch {S} (server : S -> request -> json * S)
  (i : Z) (n : string) (w : world S) :
  update_query server i (Some (mkUpdateQueryParams (Some n) None None None None)) w
  = (Raise (AttributeError "query_parms"), w).
Proof. apply update_query_raises. Qed.

(** C4 (code_bug).  Against a server answering the error payload
    [{"error": "invalid API Key"}], create, archive, unarchive, private
    and public raise DuneError with the payload, the response type name
    and the KeyError of ["query_id"]; update_query raises AttributeError
    instead. *)
Theorem missing_query_id_dune_error (w : world unit) name sql ps priv i p :
  let E := invalid_key_payload in
  let srv := const_server E in
  fst (create_query srv name sql ps priv w)
    = Raise (DuneError E "CreateQueryResponse" (KeyError "query_id")) /\
  fst (archive_query srv i w)
    = Raise (DuneError E "ArchiveQueryResponse" (KeyError "query_id")) /\
  fst (unarchive_query srv i w)
    = Raise (DuneError E "UnarchiveQueryResponse" (KeyError "query_id")) /\
  fst (make_private srv i w)
    = Raise (DuneError E "MakePrivateResponse" (KeyError "query_id")) /\
  fst (make_public srv i w)
    = Raise (DuneError E "MakePublicResponse" (KeyError "query_id")) /\
  fst (update_query srv i (Some p) w) = Raise (AttributeError "query_parms").
Proof.
  repeat split; reflexivity.
Qed.

(** C5.  [archive_query] (resp. [unarchive_query]) posts to
    [/query/{id}/archive] (resp. [/unarchive]), then re-fetches the query
    and returns the [is_archived] flag of the re-fetched query; the
    requests sent are exactly the POST and the GET, in this order. *)
Theorem archive_query_returns_refetched_flag {S} (server : S -> request -> json * S)
  (archive : bool) (i : Z) (w : world S) resp s1 v j q w2 :
  let req := mkRequest POST ("/query/" ++ z_to_str i ++ "/" ++
                             (if archive then "archive" else "unarchive")) None in
  server (wsrv w) req = (resp, s1) ->
  getitem resp "query_id" = Ok v -> py_int v = Ok j ->
  get_query server j (mkWorld s1 (wcalls w ++ [req])%list (wlog w)) = (Ok q, w2) ->
  (if archive then archive_query server i w else unarchive_query server i w)
  = (Ok (is_archived (meta q)), w2) /\
  wcalls w2 = (wcalls w ++ [req; mkRequest GET ("/query/" ++ z_to_str j) None])%list.
Proof.
  intros req Hpost Hv Hj Hget. split.
  - destruct archive;
      [unfold archive_query | unfold unarchive_query];
      rewrite (refetch_flag_spec server _ _ i _ w resp s1 v j Hpost Hv Hj);
      unfold req in Hget; rewrite Hget; reflexivity.
  - rewrite (get_query_calls server j _ _ _ Hget); simpl.
    rewrite <- app_assoc; reflexivity.
Qed.

(** C6.  [make_private] (resp. [make_public]) posts the privacy action and
    re-fetches the query; when the re-fetched [is_private] flag is the
    boolean [b], the call returns None if [b] is the intended value (true
    for make_private, false for make_public) and otherwise raises
    AssertionError, not a DuneError. *)
Theorem privacy_postcondition_assertion {S} (server : S -> request -> json * S)
  (priv : bool) (i : Z) (w : world S) resp s1 v j q w2 (b : bool) :
  let req := mkRequest POST ("/query/" ++ z_to_str i ++
                             (if priv then "/private" else "/unprivate")) None in
  server (wsrv w) req = (resp, s1) ->
  getitem resp "query_id" = Ok v -> py_int v = Ok j ->
  get_query server j (mkWorld s1 (wcalls w ++ [req])%list (wlog w)) = (Ok q, w2) ->
  is_private (meta q) = JBool b ->
  (if priv then make_private server i w else make_public server i w)
  = (if Bool.eqb b priv then Ok tt else Raise AssertionError, w2).
Proof.
  intros req Hpost Hv Hj Hget Hb.
  rewrite (privacy_spec server priv i w resp s1 v j Hpost Hv Hj).
  unfold req in Hget; rewrite Hget, Hb.
  destruct priv, b; reflexivity.
Qed.

(** C7.  [create_query] posts [{name, query_sql, is_private}] to
    [/query/], with [parameters] only when a parameter list is given; when
    the response carries an integer ["query_id"], it reads that query and
    returns the object of the read. *)
Theorem create_query_posts_then_reads {S} (server : S -> request -> json * S)
  (name sql : string) (ps : option (list QueryParameter)) (priv : bool)
  (w : world S) resp s1 v j q w2 :
  let req := mkRequest POST "/query/"
      (Some (JObj ([("name", JStr name); ("query_sql", JStr sql);
                    ("is_private", JBool priv)]
                   ++ match ps with
                      | Some l => [("parameters", JArr (map to_dict l))]
                      | None => []
                      end)%list)) in
  server (wsrv w) req = (resp, s1) ->
  getitem resp "query_id" = Ok v -> py_int v = Ok j ->
  get_query server j (mkWorld s1 (wcalls w ++ [req])%list (wlog w)) = (Ok q, w2) ->
  create_query server name sql ps priv w = (Ok q, w2) /\
  wcalls w2 = (wcalls w ++ [req; mkRequest GET ("/query/" ++ z_to_str j) None])%list.
Proof.
  intros req Hpost Hv Hj Hget. split.
  - unfold create_query, create_payload. unfold req in Hpost. post_step Hpost.
    unfold catch_key, bind at 1, lift at 1; rewrite Hv.
    unfold bind at 1, lift at 1; rewrite Hj.
    unfold req in Hget; rewrite Hget; reflexivity.
  - rewrite (get_query_calls server j _ _ _ Hget); simpl.
    rewrite <- app_assoc; reflexivity.
Qed.

(** C8.  Against the model server, on a stored query, archive_query then
    unarchive_query on the same id return true then false. *)
Theorem archive_then_unarchive (st : ModelServer.Store) (i : Z)
  (q : ModelServer.StoredQuery) calls log :
  ModelServer.store_lookup st i = Some q ->
  fst ((a <- archive_query ModelServer.server i ;;
        b <- unarchive_query ModelServer.server i ;;
        ret (a, b)) (mkWorld st calls log))
  = Ok (JBool true, JBool false).
Proof.
  intros Hq. unfold bind at 1, archive_query.
  rewrite (model_refetch st i q "archive" _ _ _ _ _ Hq eq_refl).
  unfold bind, unarchive_query.
  rewrite (model_refetch _ i _ "unarchive" _ _ _ _ _
             (eq_trans (store_lookup_update st i _) (f_equal _ Hq)) eq_refl).
  reflexivity.
Qed.

(** C9.  The re-fetch of archive, unarchive, private and unprivate reads
    the id the action response carries, not the caller's id: the GET goes
    to [/query/{j}] for the echoed [j], and the flag returned or asserted
    is the one of that query. *)
Theorem refetch_uses_echoed_id {S} (server : S -> request -> json * S)
  (i : Z) (a : string) (w : world S) resp s1 v j q w2 :
  let req := mkRequest POST ("/query/" ++ z_to_str i ++ "/" ++ a) None in
  server (wsrv w) req = (resp, s1) ->
  getitem resp "query_id" = Ok v -> py_int v = Ok j ->
  get_query server j (mkWorld s1 (wcalls w ++ [req])%list (wlog w)) = (Ok q, w2) ->
  wcalls w2 = (wcalls w ++ [req; mkRequest GET ("/query/" ++ z_to_str j) None])%list /\
  (a = "archive" -> archive_query server i w = (Ok (is_archived (meta q)), w2)) /\
  (a = "unarchive" -> unarchive_query server i w = (Ok (is_archived (meta q)), w2)) /\
  (a = "private" ->
     make_private server i w = py_assert (truthy (is_private (meta q))) w2) /\
  (a = "unprivate" ->
     make_public server i w = py_assert (negb (truthy (is_private (meta q)))) w2).
Proof.
  intros req Hpost Hv Hj Hget.
  split; [|repeat split; intros ->].
  - rewrite (get_query_calls server j _ _ _ Hget); simpl.
    rewrite <- app_assoc; reflexivity.
  - unfold archive_query; rewrite (refetch_flag_spec server _ _ i _ w resp s1 v j Hpost Hv Hj).
    unfold req in Hget; rewrite Hget; reflexivity.
  - unfold unarchive_query; rewrite (refetch_flag_spec server _ _ i _ w resp s1 v j Hpost Hv Hj).
    unfold req in Hget; rewrite Hget; reflexivity.
  - pose proof (privacy_spec server true i w resp s1 v j Hpost Hv Hj) as E;
      cbv beta iota in E.
    rewrite E. unfold req in Hget.
    change ("/" ++ "private") with "/private" in Hget; rewrite Hget; reflexivity.
  - pose proof (privacy_spec server false i w resp s1 v j Hpost Hv Hj) as E;
      cbv beta iota in E.
    rewrite E. unfold req in Hget.
    change ("/" ++ "unprivate") with "/unprivate" in Hget; rewrite Hget; reflexivity.
Qed.

(** C10 (code_bug).  Against a server whose action responses carry
    ["query_id": "abc"], create, archive, unarchive, private and public
    raise the ValueError of [int("abc")] unwrapped; update_query raises
    AttributeError before reaching the response. *)
Theorem non_integer_query_id_propagates (w : world unit) name sql ps priv i p :
  let srv := const_server non_integer_id_payload in
  fst (create_query srv name sql ps priv w) = Raise ValueError /\
  fst (archive_query srv i w) = Raise ValueError /\
  fst (unarchive_query srv i w) = Raise ValueError /\
  fst (make_private srv i w) = Raise ValueError /\
  fst (make_public srv i w) = Raise ValueError /\
  fst (update_query srv i (Some p) w) = Raise (AttributeError "query_parms").
Proof. repeat split; reflexivity. Qed.

(** ** Witnesses: the hypotheses of the claims hold on concrete inputs. *)

Lemma archive_query_returns_refetched_flag_witness :
  exists q w2,
    archive_query (echo_server 7 sample_query) 7 (start tt) = (Ok (is_archived (meta q)), w2) /\
    wcalls w2 = [mkRequest POST ("/query/" ++ z_to_str 7 ++ "/" ++ "archive") None;
                 mkRequest GET ("/query/" ++ z_to_str 7) None].
Proof.
  do 2 eexists.
  exact (archive_query_returns_refetched_flag (echo_server 7 sample_query) true 7 (start tt)
           _ tt (JNum 7) 7 _ _ eq_refl eq_refl eq_refl eq_refl).
Defined.

Lemma privacy_postcondition_assertion_witness :
  exists w2,
    make_private (echo_server 7 sample_query) 7 (start tt) = (Raise AssertionError, w2).
Proof.
  eexists.
  exact (privacy_postcondition_assertion (echo_server 7 sample_query) true 7 (start tt)
           _ tt (JNum 7) 7 _ _ false eq_refl eq_refl eq_refl eq_refl eq_refl).
Defined.

Lemma create_query_posts_then_reads_witness :
  exists q w2,
    create_query ModelServer.server "n" "select 1" None false (start []) = (Ok q, w2) /\
    wcalls w2 = [mkRequest POST "/query/"
                   (Some (JObj [("name", JStr "n"); ("query_sql", JStr "select 1");
                                ("is_private", JBool false)]));
                 mkRequest GET ("/query/" ++ z_to_str 1) None].
Proof.
  do 2 eexists.
  exact (create_query_posts_then_reads ModelServer.server "n" "select 1" None false (start [])
           _ _ (JNum 1) 1 _ _ eq_refl eq_refl eq_refl eq_refl).
Defined.

Lemma archive_then_unarchive_witness :
  ModelServer.store_lookup [(7, sample_query)] 7 = Some sample_query /\
  fst ((a <- archive_query ModelServer.server 7 ;;
        b <- unarchive_query ModelServer.server 7 ;;
        ret (a, b)) (mkWorld [(7, sample_query)] [] []))
  = Ok (JBool true, JBool false).
Proof.
  split; [reflexivity|].
  apply (archive_then_unarchive [(7, sample_query)] 7 sample_query [] []).
  reflexivity.
Defined.

Lemma refetch_uses_echoed_id_witness :
  exists q w2,
    wcalls w2 = [mkRequest POST ("/query/" ++ z_to_str 7 ++ "/" ++ "archive") None;
                 mkRequest GET ("/query/" ++ z_to_str 8) None] /\
    archive_query (echo_server 8 sample_query) 7 (start tt) = (Ok (is_archived (meta q)), w2).
Proof.
  do 2 eexists.
  destruct (refetch_uses_echoed_id (echo_server 8 sample_query) 7 "archive" (start tt)
              _ tt (JNum 8) 8 _ _ eq_refl eq_refl eq_refl eq_refl) as [H1 [H2 _]].
  split; [exact H1 | exact (H2 eq_refl)].
Defined.

(** ** Further properties of the Query API. *)


Lemma model_privacy st i q (priv : bool) calls log :
  ModelServer.store_lookup st i = Some q ->
  (if priv then make_private ModelServer.server i (mkWorld st calls log)
   else make_public ModelServer.server i (mkWorld st calls log))
  = (Ok tt,
     mkWorld (ModelServer.store_update st i (ModelServer.set_private priv))
       (calls ++ [mkRequest POST ("/query/" ++ z_to_str i ++
                                 (if priv then "/private" else "/unprivate")) None;
                  mkRequest GET ("/query/" ++ z_to_str i) None])%list log).
Proof.
  intros Hq.
  assert (Hu : forall f, ModelServer.store_lookup (ModelServer.store_update st i f) i = Some (f q))
    by (intros f; rewrite store_lookup_update, Hq; reflexivity).
  destruct priv.
  - pose proof (privacy_spec ModelServer.server true i (mkWorld st calls log) _ _ (JNum i) i
                  (model_server_action st i q "private" _ Hq eq_refl) eq_refl eq_refl) as E.
    cbv beta iota in E; rewrite E.
    rewrite (model_get_query _ i _ _ _ (Hu _)).
    simpl. rewrite <- app_assoc. reflexivity.
  - pose proof (privacy_spec ModelServer.server false i (mkWorld st calls log) _ _ (JNum i) i
                  (model_server_action st i q "unprivate" _ Hq eq_refl) eq_refl eq_refl) as E.
    cbv beta iota in E; rewrite E.
    rewrite (model_get_query _ i _ _ _ (Hu _)).
    simpl. rewrite <- app_assoc. reflexivity.
Qed.

Lemma fold_max_above (st : ModelServer.Store) :
  0 <= fold_right (fun e m => Z.max (fst e) m) 0 st /\
  Forall (fun e => fst e <= fold_right (fun e m => Z.max (fst e) m) 0 st) st.
Proof.
  induction st as [|[j q] st [IH1 IH2]]; cbn [fold_right fst].
  - split; [lia | constructor].
  - change (fold_right (fun e m => Z.max (fst e) m) 0 ((j, q) :: st))
      with (Z.max j (fold_right (fun e m => Z.max (fst e) m) 0 st)).
    set (m := fold_right (fun e m => Z.max (fst e) m) 0 st) in *.
    pose proof (Z.le_max_l j m); pose proof (Z.le_max_r j m).
    split; [lia|]. constructor; [cbn [fst]; lia|].
    eapply Forall_impl; [|exact IH2]. intros [k r]; cbn [fst]; lia.
Qed.

Lemma fresh_id_above st :
  Forall (fun e => fst e < ModelServer.fresh_id st) st /\ 0 < ModelServer.fresh_id st.
Proof.
  unfold ModelServer.fresh_id. destruct (fold_max_above st) as [H1 H2].
  split; [|lia]. eapply Forall_impl; [|exact H2]. intros [k r]; cbn [fst]; lia.
Qed.

Lemma store_lookup_snoc st i q :
  Forall (fun e => fst e < i) st ->
  ModelServer.store_lookup (st ++ [(i, q)])%list i = Some q.
Proof.
  induction 1 as [|[j r] st Hj _ IH]; simpl in *.
  - rewrite Z.eqb_refl; reflexivity.
  - destruct (Z.eqb_spec i j); [lia|exact IH].
Qed.

Lemma model_server_create st name sql ps priv :
  ModelServer.server st (mkRequest POST "/query/" (Some (create_payload name sql ps priv)))
  = (JObj [("query_id", JNum (ModelServer.fresh_id st))],
     (st ++ [(ModelServer.fresh_id st,
              ModelServer.mkStoredQuery name sql
                (match ps with Some l => l | None => [] end) "" [] priv false)])%list).
Proof.
  destruct ps as [l|]; [|reflexivity].
  unfold ModelServer.server, ModelServer.create; cbn -[map_outcome map ModelServer.fresh_id].
  rewrite params_roundtrip. reflexivity.
Qed.

(** When the lookup of ["query_id"] in the action response raises [e],
    only a KeyError is turned into a DuneError. *)
Lemma refetch_flag_lookup_fails {S} (server : S -> request -> json * S) a ty i flag w
  resp s1 e :
  server (wsrv w) (mkRequest POST ("/query/" ++ z_to_str i ++ "/" ++ a) None) = (resp, s1) ->
  getitem resp "query_id" = Raise e ->
  refetch_flag server a ty i flag w
  = (match e with
     | KeyError k => Raise (DuneError resp ty (KeyError k))
     | _ => Raise e
     end,
     mkWorld s1 (wcalls w ++ [mkRequest POST ("/query/" ++ z_to_str i ++ "/" ++ a) None])%list (wlog w)).
Proof.
  intros Hpost He. unfold refetch_flag. post_step Hpost.
  unfold catch_key, bind, lift; rewrite He; destruct e; reflexivity.
Qed.

Lemma privacy_lookup_fails {S} (server : S -> request -> json * S) (priv : bool) i w
  resp s1 e :
  server (wsrv w) (mkRequest POST ("/query/" ++ z_to_str i ++
                     (if priv then "/private" else "/unprivate")) None) = (resp, s1) ->
  getitem resp "query_id" = Raise e ->
  (if priv then make_private server i w else make_public server i w)
  = (match e with
     | KeyError k => Raise (DuneError resp (if priv then "MakePrivateResponse"
                                             else "MakePublicResponse") (KeyError k))
     | _ => Raise e
     end,
     mkWorld s1 (wcalls w ++ [mkRequest POST ("/query/" ++ z_to_str i ++
                     (if priv then "/private" else "/unprivate")) None])%list (wlog w)).
Proof.
  intros Hpost He.
  destruct priv; [unfold make_private | unfold make_public]; post_step Hpost;
    unfold catch_key, bind, lift; rewrite He; destruct e; reflexivity.
Qed.

Lemma create_lookup_fails {S} (server : S -> request -> json * S) name sql ps priv w
  resp s1 e :
  server (wsrv w) (mkRequest POST "/query/" (Some (create_payload name sql ps priv)))
  = (resp, s1) ->
  getitem resp "query_id" = Raise e ->
  create_query server name sql ps priv w
  = (match e with
     | KeyError k => Raise (DuneError resp "CreateQueryResponse" (KeyError k))
     | _ => Raise e
     end,
     mkWorld s1 (wcalls w ++ [mkRequest POST "/query/" (Some (create_payload name sql ps priv))])%list
       (wlog w)).
Proof.
  intros Hpost He. unfold create_query. post_step Hpost.
  unfold catch_key, bind, lift; rewrite He; destruct e; reflexivity.
Qed.

Lemma getitem_non_object d k : (forall kvs, d <> JObj kvs) -> getitem d k = Raise TypeError.
Proof. intros H; destruct d; try reflexivity. exfalso; exact (H kvs eq_refl). Qed.

(** ** Extra properties. *)

(** X1.  When the create response has no ["query_id"], create_query
    raises DuneError and sends only the POST: no follow-up read. *)
Theorem create_query_missing_id_no_read {S} (server : S -> request -> json * S)
  name sql ps priv (w : world S) resp s1 :
  server (wsrv w) (mkRequest POST "/query/" (Some (create_payload name sql ps priv)))
  = (resp, s1) ->
  getitem resp "query_id" = Raise (KeyError "query_id") ->
  fst (create_query server name sql ps priv w)
    = Raise (DuneError resp "CreateQueryResponse" (KeyError "query_id")) /\
  wcalls (snd (create_query server name sql ps priv w))
    = (wcalls w ++ [mkRequest POST "/query/" (Some (create_payload name sql ps priv))])%list.
Proof.
  intros Hpost He. rewrite (create_lookup_fails server name sql ps priv w resp s1 _ Hpost He).
  split; reflexivity.
Qed.

(** X2.  When the action response has no ["query_id"], archive,
    unarchive, private and unprivate raise DuneError and send only the
    POST of the action: no re-fetch. *)
Theorem action_missing_id_no_read {S} (server : S -> request -> json * S)
  (i : Z) (a : string) (w : world S) resp s1 :
  let req := mkRequest POST ("/query/" ++ z_to_str i ++ "/" ++ a) None in
  let w1 := mkWorld s1 (wcalls w ++ [req])%list (wlog w) in
  server (wsrv w) req = (resp, s1) ->
  getitem resp "query_id" = Raise (KeyError "query_id") ->
  (a = "archive" -> archive_query server i w
     = (Raise (DuneError resp "ArchiveQueryResponse" (KeyError "query_id")), w1)) /\
  (a = "unarchive" -> unarchive_query server i w
     = (Raise (DuneError resp "UnarchiveQueryResponse" (KeyError "query_id")), w1)) /\
  (a = "private" -> make_private server i w
     = (Raise (DuneError resp "MakePrivateResponse" (KeyError "query_id")), w1)) /\
  (a = "unprivate" -> make_public server i w
     = (Raise (DuneError resp "MakePublicResponse" (KeyError "query_id")), w1)).
Proof.
  intros req w1 Hpost He. repeat split; intros ->.
  - exact (refetch_flag_lookup_fails server _ _ i _ w resp s1 _ Hpost He).
  - exact (refetch_flag_lookup_fails server _ _ i _ w resp s1 _ Hpost He).
  - exact (privacy_lookup_fails server true i w resp s1 _ Hpost He).
  - exact (privacy_lookup_fails server false i w resp s1 _ Hpost He).
Qed.

(** X3.  A KeyError raised by the re-fetch (the read response lacks a
    field) is reported as a DuneError that carries the action response
    and the action's response type, not the read response. *)
Theorem refetch_key_error_blamed_on_action {S} (server : S -> request -> json * S)
  (i : Z) (a : string) (w : world S) resp s1 v j k w2 :
  let req := mkRequest POST ("/query/" ++ z_to_str i ++ "/" ++ a) None in
  server (wsrv w) req = (resp, s1) ->
  getitem resp "query_id" = Ok v -> py_int v = Ok j ->
  get_query server j (mkWorld s1 (wcalls w ++ [req])%list (wlog w)) = (Raise (KeyError k), w2) ->
  (a = "archive" -> archive_query server i w
     = (Raise (DuneError resp "ArchiveQueryResponse" (KeyError k)), w2)) /\
  (a = "unarchive" -> unarchive_query server i w
     = (Raise (DuneError resp "UnarchiveQueryResponse" (KeyError k)), w2)) /\
  (a = "private" -> make_private server i w
     = (Raise (DuneError resp "MakePrivateResponse" (KeyError k)), w2)) /\
  (a = "unprivate" -> make_public server i w
     = (Raise (DuneError resp "MakePublicResponse" (KeyError k)), w2)).
Proof.
  intros req Hpost Hv Hj Hget. repeat split; intros ->.
  - unfold archive_query; rewrite (refetch_flag_spec server _ _ i _ w resp s1 v j Hpost Hv Hj).
    unfold req in Hget; rewrite Hget; reflexivity.
  - unfold unarchive_query; rewrite (refetch_flag_spec server _ _ i _ w resp s1 v j Hpost Hv Hj).
    unfold req in Hget; rewrite Hget; reflexivity.
  - pose proof (privacy_spec server true i w resp s1 v j Hpost Hv Hj) as E;
      cbv beta iota in E.
    rewrite E. unfold req in Hget.
    change ("/" ++ "private") with "/private" in Hget; rewrite Hget; reflexivity.
  - pose proof (privacy_spec server false i w resp s1 v j Hpost Hv Hj) as E;
      cbv beta iota in E.
    rewrite E. unfold req in Hget.
    change ("/" ++ "unprivate") with "/unprivate" in Hget; rewrite Hget; reflexivity.
Qed.

(** X4.  The same holds for create_query: a KeyError of the follow-up
    read becomes a DuneError carrying the create response and
    "CreateQueryResponse". *)
Theorem create_read_key_error_blamed_on_create {S} (server : S -> request -> json * S)
  name sql ps priv (w : world S) resp s1 v j k w2 :
  let req := mkRequest POST "/query/" (Some (create_payload name sql ps priv)) in
  server (wsrv w) req = (resp, s1) ->
  getitem resp "query_id" = Ok v -> py_int v = Ok j ->
  get_query server j (mkWorld s1 (wcalls w ++ [req])%list (wlog w)) = (Raise (KeyError k), w2) ->
  create_query server name sql ps priv w
  = (Raise (DuneError resp "CreateQueryResponse" (KeyError k)), w2).
Proof.
  intros req Hpost Hv Hj Hget.
  unfold create_query. unfold req in Hpost. post_step Hpost.
  unfold catch_key, bind at 1, lift at 1; rewrite Hv.
  unfold bind at 1, lift at 1; rewrite Hj.
  unfold req in Hget; rewrite Hget; reflexivity.
Qed.

(** X5.  When the action or create response is not a JSON object (a list,
    a string, a number, null), indexing it raises TypeError, which every
    operation lets through unwrapped, after the single POST. *)
Theorem non_object_response_type_error {S} (server : S -> request -> json * S)
  (i : Z) (a : string) (w : world S) resp s1 :
  let req := mkRequest POST ("/query/" ++ z_to_str i ++ "/" ++ a) None in
  let w1 := mkWorld s1 (wcalls w ++ [req])%list (wlog w) in
  server (wsrv w) req = (resp, s1) ->
  (forall kvs, resp <> JObj kvs) ->
  (a = "archive" -> archive_query server i w = (Raise TypeError, w1)) /\
  (a = "unarchive" -> unarchive_query server i w = (Raise TypeError, w1)) /\
  (a = "private" -> make_private server i w = (Raise TypeError, w1)) /\
  (a = "unprivate" -> make_public server i w = (Raise TypeError, w1)).
Proof.
  intros req w1 Hpost Hnot.
  pose proof (getitem_non_object resp "query_id" Hnot) as He.
  repeat split; intros ->.
  - exact (refetch_flag_lookup_fails server _ _ i _ w resp s1 _ Hpost He).
  - exact (refetch_flag_lookup_fails server _ _ i _ w resp s1 _ Hpost He).
  - exact (privacy_lookup_fails server true i w resp s1 _ Hpost He).
  - exact (privacy_lookup_fails server false i w resp s1 _ Hpost He).
Qed.

(** X6.  Against the model server, create_query returns the query just
    stored, under a positive fresh id: the given name, SQL text, privacy
    flag and parameters (none when no list is given), an empty
    description and no tags, not archived; after exactly the create POST
    and one read of that id. *)
Theorem create_query_model_roundtrip (st : ModelServer.Store) name sql ps priv calls log :
  let i := ModelServer.fresh_id st in
  let params := match ps with Some l => l | None => [] end in
  0 < i /\
  create_query ModelServer.server name sql ps priv (mkWorld st calls log)
  = (Ok (mkDuneQuery i (JStr name) params (JStr sql)
           (mkQueryMeta (JStr "") (JArr []) (JBool priv) (JBool false))),
     mkWorld (st ++ [(i, ModelServer.mkStoredQuery name sql params "" [] priv false)])%list
       (calls ++ [mkRequest POST "/query/" (Some (create_payload name sql ps priv));
                  mkRequest GET ("/query/" ++ z_to_str i) None])%list log).
Proof.
  intros i params; subst i params.
  destruct (fresh_id_above st) as [Hall Hpos]. split; [exact Hpos|].
  unfold create_query, bind at 1, _post, send; simpl wsrv.
  rewrite model_server_create.
  unfold catch_key, bind, lift;
  cbn -[get_query z_to_str String.append create_payload ModelServer.fresh_id].
  rewrite (model_get_query _ _ _ _ _ (store_lookup_snoc st _ _ Hall)).
  rewrite <- app_assoc. reflexivity.
Qed.

(** X7.  Against the model server, on a stored query, make_private then
    make_public both succeed, and reads after each report is_private true
    then false (the caller test [test_make_private_and_public]). *)
Theorem private_then_public_model (st : ModelServer.Store) (i : Z)
  (q : ModelServer.StoredQuery) calls log :
  ModelServer.store_lookup st i = Some q ->
  fst ((make_private ModelServer.server i ;;;
        q1 <- get_query ModelServer.server i ;;
        make_public ModelServer.server i ;;;
        q2 <- get_query ModelServer.server i ;;
        ret (is_private (meta q1), is_private (meta q2))) (mkWorld st calls log))
  = Ok (JBool true, JBool false).
Proof.
  intros Hq.
  assert (H1 : ModelServer.store_lookup
                 (ModelServer.store_update st i (ModelServer.set_private true)) i
               = Some (ModelServer.set_private true q))
    by (rewrite store_lookup_update, Hq; reflexivity).
  assert (H2 : forall st',
            ModelServer.store_lookup st' i = Some (ModelServer.set_private true q) ->
            ModelServer.store_lookup
              (ModelServer.store_update st' i (ModelServer.set_private false)) i
            = Some (ModelServer.set_private false (ModelServer.set_private true q)))
    by (intros st' H; rewrite store_lookup_update, H; reflexivity).
  pose proof (model_privacy st i q true calls log Hq) as E1; cbv beta iota in E1.
  unfold bind at 1; rewrite E1; cbv beta iota.
  unfold bind at 1; erewrite (model_get_query _ i _ _ _ H1); cbv beta iota.
  unfold bind at 1.
  match goal with
  | |- context [make_public _ _ (mkWorld ?s ?c ?l)] =>
      pose proof (model_privacy s i _ false c l H1) as E2
  end.
  cbv beta iota in E2.
  rewrite E2; cbv beta iota.
  unfold bind at 1; erewrite (model_get_query _ i _ _ _ (H2 _ H1)).
  reflexivity.
Qed.

(** X8.  update_query, whatever its arguments, sends no request, logs no
    warning and leaves the server untouched: it raises AttributeError on
    [params.query_parms]. *)
Theorem update_query_never_sends {S} (server : S -> request -> json * S)
  (i : Z) (p : option UpdateQueryParams) (w : world S) :
  update_query server i p w = (Raise (AttributeError "query_parms"), w).
Proof. apply update_query_raises. Qed.

(** ** Witnesses of the extra properties. *)

Lemma create_query_missing_id_no_read_witness :
  fst (create_query (const_server invalid_key_payload) "n" "select 1" None false (start tt))
    = Raise (DuneError invalid_key_payload "CreateQueryResponse" (KeyError "query_id")) /\
  wcalls (snd (create_query (const_server invalid_key_payload) "n" "select 1" None false (start tt)))
    = ([] ++ [mkRequest POST "/query/" (Some (create_payload "n" "select 1" None false))])%list.
Proof.
  exact (create_query_missing_id_no_read (const_server invalid_key_payload) "n" "select 1"
           None false (start tt) invalid_key_payload tt eq_refl eq_refl).
Defined.

Lemma action_missing_id_no_read_witness :
  archive_query (const_server invalid_key_payload) 7 (start tt)
  = (Raise (DuneError invalid_key_payload "ArchiveQueryResponse" (KeyError "query_id")),
     mkWorld tt [mkRequest POST ("/query/" ++ z_to_str 7 ++ "/" ++ "archive") None] []).
Proof.
  destruct (action_missing_id_no_read (const_server invalid_key_payload) 7 "archive" (start tt)
              invalid_key_payload tt eq_refl eq_refl) as [H _].
  exact (H eq_refl).
Defined.

Lemma refetch_key_error_blamed_on_action_witness :
  exists w2,
    make_private (const_server (JObj [("query_id", JNum 7)])) 7 (start tt)
    = (Raise (DuneError (JObj [("query_id", JNum 7)]) "MakePrivateResponse" (KeyError "name")), w2).
Proof.
  eexists.
  destruct (refetch_key_error_blamed_on_action (const_server (JObj [("query_id", JNum 7)]))
              7 "private" (start tt) _ tt (JNum 7) 7 "name" _
              eq_refl eq_refl eq_refl eq_refl) as [_ [_ [H _]]].
  exact (H eq_refl).
Defined.

Lemma create_read_key_error_blamed_on_create_witness :
  exists w2,
    create_query (const_server (JObj [("query_id", JNum 7)])) "n" "select 1" None false (start tt)
    = (Raise (DuneError (JObj [("query_id", JNum 7)]) "CreateQueryResponse" (KeyError "name")), w2).
Proof.
  eexists.
  exact (create_read_key_error_blamed_on_create (const_server (JObj [("query_id", JNum 7)]))
           "n" "select 1" None false (start tt) _ tt (JNum 7) 7 "name" _
           eq_refl eq_refl eq_refl eq_refl).
Defined.

Lemma non_object_response_type_error_witness :
  unarchive_query (const_server (JArr [])) 7 (start tt)
  = (Raise TypeError,
     mkWorld tt [mkRequest POST ("/query/" ++ z_to_str 7 ++ "/" ++ "unarchive") None] []).
Proof.
  destruct (non_object_response_type_error (const_server (JArr [])) 7 "unarchive" (start tt)
              (JArr []) tt eq_refl (fun kvs H => ltac:(discriminate H))) as [_ [H _]].
  exact (H eq_refl).
Defined.

Lemma private_then_public_model_witness :
  ModelServer.store_lookup [(7, sample_query)] 7 = Some sample_query /\
  fst ((make_private ModelServer.server 7 ;;;
        q1 <- get_query ModelServer.server 7 ;;
        make_public ModelServer.server 7 ;;;
        q2 <- get_query ModelServer.server 7 ;;
        ret (is_private (meta q1), is_private (meta q2))) (mkWorld [(7, sample_query)] [] []))
  = Ok (JBool true, JBool false).
Proof.
  split; [reflexivity|].
  apply (private_then_public_model [(7, sample_query)] 7 sample_query [] []).
  reflexivity.
Defined.
